(** * threatmodel: the default threat library (threatmodel/threatlib/__init__.py)

    A shallow embedding of the seven CAPEC rules of [DEFAULT_THREATLIB] and of
    the objects they inspect.  Python objects live in a heap and are passed by
    reference; a rule body runs in a small state-and-exception monad, so that
    "returns a Risk", "returns None", "raises" and "leaves the objects as they
    were" are four different observations. *)

From stdpp Require Import base decidable countable numbers strings list gmap.

(** ** Vocabulary *)

Module Controls.

(** Modelled from the spec: the [Controls] enumeration, declared in
    threatmodel/model and not in the files verified here.  Its members are
    the controls the data model lists and the rules test: input sanitizing,
    input validation, input bounds checks, parameterization and the
    deactivation of server side includes. *)
Inductive t : Set :=
| INPUT_SANITIZING
| INPUT_VALIDATION
| INPUT_BOUNDS_CHECKS
| PARAMETERIZATION
| SERVER_SIDE_INCLUDES_DEACTIVATION.

#[global] Instance eq_dec : EqDecision t.
Proof. solve_decision. Defined.

Definition to_nat (c : t) : nat :=
  match c with
  | INPUT_SANITIZING => 0
  | INPUT_VALIDATION => 1
  | INPUT_BOUNDS_CHECKS => 2
  | PARAMETERIZATION => 3
  | SERVER_SIDE_INCLUDES_DEACTIVATION => 4
  end.

Definition of_nat (n : nat) : t :=
  match n with
  | 0 => INPUT_SANITIZING
  | 1 => INPUT_VALIDATION
  | 2 => INPUT_BOUNDS_CHECKS
  | 3 => PARAMETERIZATION
  | _ => SERVER_SIDE_INCLUDES_DEACTIVATION
  end.

#[global] Instance countable : Countable t.
Proof. apply (inj_countable' to_nat of_nat). by intros []. Defined.

(** Modelled from the spec: the members of the enumeration under the names
    by which they are referred to.  The rules are the authority on the names
    they use: CAPEC-66 refers to the parameterization control as
    [Controls.Parameterization], the data model as PARAMETERIZATION. *)
Definition members : list (string * t) :=
  [ ("INPUT_SANITIZING", INPUT_SANITIZING);
    ("INPUT_VALIDATION", INPUT_VALIDATION);
    ("INPUT_BOUNDS_CHECKS", INPUT_BOUNDS_CHECKS);
    ("PARAMETERIZATION", PARAMETERIZATION);
    ("Parameterization", PARAMETERIZATION);
    ("SERVER_SIDE_INCLUDES_DEACTIVATION", SERVER_SIDE_INCLUDES_DEACTIVATION) ].

(** An expression [Controls.X] is an attribute lookup by name on the
    enumeration class.  [None] stands for Python's AttributeError on a name
    that denotes no member. *)
Definition getattr (attr : string) : option t :=
  snd <$> List.find (λ m, String.eqb (fst m) attr) members.

End Controls.

Module Technology.

(** Modelled from the spec: the [Technology] enumeration (threatmodel/model).
    FILE_SERVER and LOCAL_FILE_SYSTEM are named by the rules, WEB_SERVICE_REST
    and DATABASE by examples/example.py. *)
Inductive t : Set :=
| WEB_SERVICE_REST
| DATABASE
| FILE_SERVER
| LOCAL_FILE_SYSTEM.

#[global] Instance eq_dec : EqDecision t.
Proof. solve_decision. Defined.

End Technology.

Module Protocol.

(** Modelled from the spec: the [Protocol] enumeration (threatmodel/model).
    HTTPS and SQL are named by examples/example.py; NOSQL stands for the
    "generic NoSQL variants" of the data model. *)
Inductive t : Set :=
| HTTPS
| SQL
| NOSQL.

#[global] Instance eq_dec : EqDecision t.
Proof. solve_decision. Defined.

End Protocol.

Module Authentication.

(** Modelled from the spec: the [Authentication] enumeration
    (threatmodel/model); SESSION_ID is the member CAPEC-102 compares with. *)
Inductive t : Set :=
| NONE
| SESSION_ID.

#[global] Instance eq_dec : EqDecision t.
Proof. solve_decision. Defined.

End Authentication.

Module Impact.

(** Modelled from the spec: [Impact] (threatmodel/risk), LOW .. VERY_HIGH;
    the rules name MEDIUM, HIGH and VERY_HIGH. *)
Inductive t : Set :=
| LOW
| MEDIUM
| HIGH
| VERY_HIGH.

#[global] Instance eq_dec : EqDecision t.
Proof. solve_decision. Defined.

End Impact.

Module Likelihood.

(** Modelled from the spec: [Likelihood] (threatmodel/risk), UNLIKELY ..
    VERY_LIKELY; the rules name LIKELY and VERY_LIKELY. *)
Inductive t : Set :=
| UNLIKELY
| LIKELY
| VERY_LIKELY.

#[global] Instance eq_dec : EqDecision t.
Proof. solve_decision. Defined.

End Likelihood.

Module AttackCategory.

(** The members of [AttackCategory] (threatmodel/threat) that the seven
    rules are filed under. *)
Inductive t : Set :=
| MANIPULATE_DATA_STRUCTURES
| INJECT_UNEXPECTED_ITEMS
| SUBVERT_ACCESS_CONTROL.

#[global] Instance eq_dec : EqDecision t.
Proof. solve_decision. Defined.

End AttackCategory.

Module Class.

(** Modelled from the spec: the concrete element classes.  A rule names
    some of them in its tuple of target classes and tests one with
    [isinstance]. *)
Inductive t : Set :=
| Actor
| Process
| DataStore
| ExternalEntity
| DataFlow.

#[global] Instance eq_dec : EqDecision t.
Proof. solve_decision. Defined.

End Class.

(** ** Objects and the heap *)

(** Objects are passed by reference. *)
Definition ref := positive.

(** Modelled from the spec: the attributes shared by the component classes
    (threatmodel/model), of which the rules read the technology and the set
    of declared controls. *)
Record TechnicalComponent : Type := {
  component_name : string;
  technology : Technology.t;
  controls : gset Controls.t;
}.

(** Modelled from the spec: a [Process] is a component that may read
    environment variables. *)
Record Process : Type := {
  process_component : TechnicalComponent;
  environment_variables : bool;
}.

(** Modelled from the spec: a [DataFlow] holds references to its two
    endpoints, a protocol and an authentication mode. *)
Record DataFlow : Type := {
  flow_name : string;
  source : ref;
  destination : ref;
  protocol : Protocol.t;
  authentication : Authentication.t;
}.

(** An object of the heap, tagged with its class. *)
Inductive Element : Type :=
| EActor (c : TechnicalComponent)
| EProcess (p : Process)
| EDataStore (c : TechnicalComponent)
| EExternalEntity (c : TechnicalComponent)
| EDataFlow (f : DataFlow).

Definition class_of (e : Element) : Class.t :=
  match e with
  | EActor _ => Class.Actor
  | EProcess _ => Class.Process
  | EDataStore _ => Class.DataStore
  | EExternalEntity _ => Class.ExternalEntity
  | EDataFlow _ => Class.DataFlow
  end.

Definition technical_component (e : Element) : option TechnicalComponent :=
  match e with
  | EActor c | EDataStore c | EExternalEntity c => Some c
  | EProcess p => Some (process_component p)
  | EDataFlow _ => None
  end.

Abbreviation Heap := (gmap ref Element).

(** Modelled from the spec: [has_control] (threatmodel/model) answers whether
    a control is a member of the component's controls set. *)
Definition has_control (c : TechnicalComponent) (ctl : Controls.t) : bool :=
  bool_decide (ctl ∈ controls c).

(** The methods of [Process] and [DataFlow] that the rules call and whose
    bodies are in threatmodel/model.  They are taken as parameters: read-only
    functions of the object they are called on.  The rules are verified for
    every such implementation. *)
Class ModelMethods : Type := {
  is_relational_database_protocol : DataFlow → bool;
  is_nosql_database_protocol : DataFlow → bool;
  is_encrypted : DataFlow → bool;
  is_web_application : Process → bool;
}.

(** ** Threats and risks *)

Module Threat.

(** The data a rule's [__init__] hands to [Threat.__init__].  The
    description, prerequisite and mitigation texts are prose that no code path
    reads and are left out. *)
Record t : Type := {
  id : string;
  name : string;
  target : list Class.t;
  category : AttackCategory.t;
  cwe_ids : list Z;
}.

#[global] Instance eq_dec : EqDecision t.
Proof. solve_decision. Defined.

End Threat.

(** [Risk(target, threat, impact, likelihood)], as the rules build it; the
    target is a reference. *)
Record Risk : Type := {
  risk_target : ref;
  risk_threat : Threat.t;
  risk_impact : Impact.t;
  risk_likelihood : Likelihood.t;
}.

#[global] Instance Risk_eq_dec : EqDecision Risk.
Proof. solve_decision. Defined.

(** ** The evaluation monad *)

(** [InvalidReference] is not a Python exception: it marks a reference that
    names no object of the heap, which Python cannot build. *)
Inductive Exn : Type :=
| AttributeError (owner attr : string)
| InvalidReference (r : ref).

#[global] Instance Exn_eq_dec : EqDecision Exn.
Proof. solve_decision. Defined.

Inductive Outcome (A : Type) : Type :=
| Returned (a : A)
| Raised (e : Exn).

Arguments Returned {A} a.
Arguments Raised {A} e.

Definition Py (A : Type) : Type := Heap → Outcome A * Heap.

#[global] Instance Py_ret : MRet Py := λ A a h, (Returned a, h).

#[global] Instance Py_bind : MBind Py := λ A B k m h,
  match m h with
  | (Returned a, h') => k a h'
  | (Raised e, h') => (Raised e, h')
  end.

Definition raise {A : Type} (e : Exn) : Py A := λ h, (Raised e, h).

Definition deref (r : ref) : Py Element := λ h,
  match h !! r with
  | Some e => (Returned e, h)
  | None => (Raised (InvalidReference r), h)
  end.

(** [Controls.X] *)
Definition Controls_attr (attr : string) : Py Controls.t :=
  match Controls.getattr attr with
  | Some c => mret c
  | None => raise (AttributeError "Controls" attr)
  end.

(** [r.has_control]: the bound method of the object behind [r]. *)
Definition has_control_of (r : ref) : Py (Controls.t → bool) :=
  e ← deref r;
  match technical_component e with
  | Some c => mret (has_control c)
  | None => raise (AttributeError "DataFlow" "has_control")
  end.

(** [obj.has_control(Controls.X)]: the callee is evaluated before its
    argument. *)
Definition call_has_control (callee : Py (Controls.t → bool)) (attr : string) : Py bool :=
  m ← callee;
  c ← Controls_attr attr;
  mret (m c).

(** [a and b] on booleans: [b] is evaluated only when [a] is true. *)
Definition and_then (a b : Py bool) : Py bool :=
  x ← a; if x : bool then b else mret false.

(** [e is False], [e is True] and [not e] on a boolean. *)
Definition is_False (e : Py bool) : Py bool :=
  x ← e; mret (negb x).

Definition is_True (e : Py bool) : Py bool :=
  x ← e; mret (bool_decide (x = true)).

Definition not_ (e : Py bool) : Py bool :=
  x ← e; mret (negb x).

Infix "&&&" := and_then (at level 40, left associativity).

(** ** The rules *)

(** A registered rule: the threat object and its [apply] method. *)
Record Rule : Type := {
  self : Threat.t;
  apply : ref → Py (option Risk);
}.

(** [isinstance(target, classes)] with a tuple of classes.  Inside a rule the
    test against one class is the [match] on the element, which also gives
    the body the attributes of that class. *)
Definition isinstance (e : Element) (classes : list Class.t) : bool :=
  bool_decide (class_of e ∈ classes).

Module CAPEC_10.

Definition init : Threat.t := {|
  Threat.id := "CAPEC-10";
  Threat.name := "Buffer Overflow via Environment Variables";
  Threat.target := [Class.Process];
  Threat.category := AttackCategory.MANIPULATE_DATA_STRUCTURES;
  Threat.cwe_ids := [120; 302; 118; 119; 74; 99; 20; 680; 733; 697]%Z;
|}.

Definition apply (target : ref) : Py (option Risk) :=
  e ← deref target;
  match e with
  | EProcess p =>
      let target_has_control := mret (has_control (process_component p)) in
      cond ← is_True (mret (environment_variables p))
             &&& is_False (call_has_control target_has_control "INPUT_SANITIZING")
             &&& is_False (call_has_control target_has_control "INPUT_BOUNDS_CHECKS");
      if cond : bool
      then mret (Some (Build_Risk target init Impact.HIGH Likelihood.VERY_LIKELY))
      else mret None
  | _ => mret None
  end.

(** [CAPEC_10()] *)
Definition new : Rule := Build_Rule init apply.

End CAPEC_10.

Module CAPEC_66.

Definition init : Threat.t := {|
  Threat.id := "CAPEC-66";
  Threat.name := "SQL Injection";
  Threat.target := [Class.DataFlow];
  Threat.category := AttackCategory.INJECT_UNEXPECTED_ITEMS;
  Threat.cwe_ids := [89; 1286]%Z;
|}.

Definition apply `{ModelMethods} (target : ref) : Py (option Risk) :=
  e ← deref target;
  match e with
  | EDataFlow f =>
      if negb (is_relational_database_protocol f) then mret None else
      let source_has_control := has_control_of (source f) in
      cond ← is_False (call_has_control source_has_control "INPUT_SANITIZING")
             &&& is_False (call_has_control source_has_control "INPUT_VALIDATION")
             &&& is_False (call_has_control source_has_control "Parameterization");
      if cond : bool
      then mret (Some (Build_Risk (source f) init Impact.HIGH Likelihood.LIKELY))
      else mret None
  | _ => mret None
  end.

(** [CAPEC_66()] *)
Definition new `{ModelMethods} : Rule := Build_Rule init apply.

End CAPEC_66.

Module CAPEC_100.

Definition init : Threat.t := {|
  Threat.id := "CAPEC-100";
  Threat.name := "Overflow Buffers";
  Threat.target := [Class.Process];
  Threat.category := AttackCategory.MANIPULATE_DATA_STRUCTURES;
  Threat.cwe_ids := [120; 119; 131; 129; 805; 680]%Z;
|}.

Definition apply (target : ref) : Py (option Risk) :=
  e ← deref target;
  match e with
  | EProcess p =>
      let target_has_control := mret (has_control (process_component p)) in
      cond ← not_ (call_has_control target_has_control "INPUT_BOUNDS_CHECKS");
      if cond : bool
      then mret (Some (Build_Risk target init Impact.VERY_HIGH Likelihood.VERY_LIKELY))
      else mret None
  | _ => mret None
  end.

(** [CAPEC_100()] *)
Definition new : Rule := Build_Rule init apply.

End CAPEC_100.

Module CAPEC_101.

Definition init : Threat.t := {|
  Threat.id := "CAPEC-101";
  Threat.name := "Server Side Include (SSI) Injection";
  Threat.target := [Class.Process];
  Threat.category := AttackCategory.INJECT_UNEXPECTED_ITEMS;
  Threat.cwe_ids := [97; 74; 20]%Z;
|}.

(** [a or b] is [b] evaluated only when [a] is false. *)
Definition apply `{ModelMethods} (target : ref) : Py (option Risk) :=
  e ← deref target;
  match e with
  | EProcess p =>
      let target_has_control := mret (has_control (process_component p)) in
      ssi ← call_has_control target_has_control "SERVER_SIDE_INCLUDES_DEACTIVATION";
      guarded ← (if ssi : bool then mret true
                 else call_has_control target_has_control "INPUT_SANITIZING");
      if guarded : bool then mret None else
      if is_web_application p
      then mret (Some (Build_Risk target init Impact.HIGH Likelihood.LIKELY))
      else mret None
  | _ => mret None
  end.

(** [CAPEC_101()] *)
Definition new `{ModelMethods} : Rule := Build_Rule init apply.

End CAPEC_101.

Module CAPEC_102.

Definition init : Threat.t := {|
  Threat.id := "CAPEC-102";
  Threat.name := "Session Sidejacking";
  Threat.target := [Class.DataFlow];
  Threat.category := AttackCategory.SUBVERT_ACCESS_CONTROL;
  Threat.cwe_ids := [294; 522; 523; 319; 614]%Z;
|}.

Definition apply `{ModelMethods} (target : ref) : Py (option Risk) :=
  e ← deref target;
  match e with
  | EDataFlow f =>
      cond ← not_ (mret (is_encrypted f))
             &&& mret (bool_decide (authentication f = Authentication.SESSION_ID));
      if cond : bool
      then mret (Some (Build_Risk target init Impact.HIGH Likelihood.LIKELY))
      else mret None
  | _ => mret None
  end.

(** [CAPEC_102()] *)
Definition new `{ModelMethods} : Rule := Build_Rule init apply.

End CAPEC_102.

Module CAPEC_126.

Definition init : Threat.t := {|
  Threat.id := "CAPEC-126";
  Threat.name := "Path Traversal";
  Threat.target := [Class.Process];
  Threat.category := AttackCategory.MANIPULATE_DATA_STRUCTURES;
  Threat.cwe_ids := [294; 522; 523; 319; 614]%Z;
|}.

Definition apply (target : ref) : Py (option Risk) :=
  e ← deref target;
  match e with
  | EProcess p =>
      if negb (bool_decide (technology (process_component p)
                              ∈ [Technology.FILE_SERVER; Technology.LOCAL_FILE_SYSTEM]))
      then mret None else
      let target_has_control := mret (has_control (process_component p)) in
      cond ← is_False (call_has_control target_has_control "INPUT_SANITIZING")
             &&& is_False (call_has_control target_has_control "INPUT_VALIDATION");
      if cond : bool
      then mret (Some (Build_Risk target init Impact.MEDIUM Likelihood.VERY_LIKELY))
      else mret None
  | _ => mret None
  end.

(** [CAPEC_126()] *)
Definition new : Rule := Build_Rule init apply.

End CAPEC_126.

Module CAPEC_676.

Definition init : Threat.t := {|
  Threat.id := "CAPEC-676";
  Threat.name := "NoSQL Injection";
  Threat.target := [Class.DataFlow];
  Threat.category := AttackCategory.INJECT_UNEXPECTED_ITEMS;
  Threat.cwe_ids := [943; 1286]%Z;
|}.

Definition apply `{ModelMethods} (target : ref) : Py (option Risk) :=
  e ← deref target;
  match e with
  | EDataFlow f =>
      if negb (is_nosql_database_protocol f) then mret None else
      let source_has_control := has_control_of (source f) in
      cond ← is_False (call_has_control source_has_control "INPUT_SANITIZING")
             &&& is_False (call_has_control source_has_control "INPUT_VALIDATION");
      if cond : bool
      then mret (Some (Build_Risk (source f) init Impact.HIGH Likelihood.LIKELY))
      else mret None
  | _ => mret None
  end.

(** [CAPEC_676()] *)
Definition new `{ModelMethods} : Rule := Build_Rule init apply.

End CAPEC_676.

(** [DEFAULT_THREATLIB.add_threats(...)], in registration order. *)
Definition DEFAULT_THREATLIB `{ModelMethods} : list Rule :=
  [ CAPEC_10.new;
    CAPEC_66.new;
    CAPEC_100.new;
    CAPEC_101.new;
    CAPEC_102.new;
    CAPEC_126.new;
    CAPEC_676.new ].

(** ** Evaluation of a model *)

(** Modelled from the spec: [Threat.is_eligible] (threatmodel/threat) holds
    iff the target's class is one of the classes the rule declares. *)
Definition is_eligible (threat : Threat.t) (e : Element) : bool :=
  isinstance e (Threat.target threat).

(** Modelled from the spec: a [Model] (threatmodel/model) owns its elements
    and its data flows, each in insertion order. *)
Record Model : Type := {
  elements : list ref;
  data_flows : list ref;
}.

(** Every element and data flow of the model. *)
Definition targets (m : Model) : list ref := elements m ++ data_flows m.

(** Modelled from the spec: the result of an evaluation lists the findings
    and, next to them, the (rule, target) pairs whose rule raised. *)
Record Result : Type := {
  findings : list Risk;
  failed : list (Threat.t * ref * Exn);
}.

Definition add_finding (risk : Risk) (res : Result) : Result :=
  {| findings := findings res ++ [risk]; failed := failed res |}.

Definition add_failure (threat : Threat.t) (t : ref) (e : Exn) (res : Result) : Result :=
  {| findings := findings res; failed := failed res ++ [(threat, t, e)] |}.

(** [try: ... except Exception as e: ...] around one call. *)
Definition try_ {A : Type} (m : Py A) : Py (A + Exn) := λ h,
  match m h with
  | (Returned a, h') => (Returned (inl a), h')
  | (Raised e, h') => (Returned (inr e), h')
  end.

Fixpoint foldM {A B : Type} (f : B → A → Py B) (l : list A) (b : B) : Py B :=
  match l with
  | [] => mret b
  | a :: l' => b' ← f b a; foldM f l' b'
  end.

(** Modelled from the spec: one step of the evaluator (Model.evaluate,
    threatmodel/model).  If the rule is eligible for the target, [apply] is
    invoked; a finding is appended to the running list, and a rule that raises
    is recorded and does not stop the evaluation. *)
Definition evaluate_pair (r : Rule) (res : Result) (t : ref) : Py Result :=
  e ← deref t;
  if is_eligible (self r) e
  then
    o ← try_ (apply r t);
    match o with
    | inl (Some risk) => mret (add_finding risk res)
    | inl None => mret res
    | inr exn => mret (add_failure (self r) t exn res)
    end
  else mret res.

(** Modelled from the spec: one rule against every element and data flow of
    the model, in insertion order. *)
Definition evaluate_rule (m : Model) (res : Result) (r : Rule) : Py Result :=
  foldM (evaluate_pair r) (targets m) res.

(** Modelled from the spec: the evaluator (Model.evaluate), every rule of the
    registry in registration order, from an empty result. *)
Definition evaluate (m : Model) (lib : list Rule) : Py Result :=
  foldM (evaluate_rule m) lib {| findings := []; failed := [] |}.

(** ** A concrete model API and concrete objects *)

(** Modelled from the spec: one implementation of the methods whose bodies are
    in threatmodel/model.  SQL is the relational database protocol, NOSQL the
    NoSQL one, HTTPS the encrypted one, and a REST web service is a web
    application. *)
Definition spec_methods : ModelMethods := {|
  is_relational_database_protocol f := bool_decide (protocol f = Protocol.SQL);
  is_nosql_database_protocol f := bool_decide (protocol f = Protocol.NOSQL);
  is_encrypted f := bool_decide (protocol f = Protocol.HTTPS);
  is_web_application p :=
    bool_decide (technology (process_component p) = Technology.WEB_SERVICE_REST);
|}.

(** The two back-end objects of examples/example.py and the flow between
    them: a REST process without controls that queries a database over SQL. *)
Definition web_api : Process := {|
  process_component := {|
    component_name := "WebApi";
    technology := Technology.WEB_SERVICE_REST;
    controls := ∅ |};
  environment_variables := false;
|}.

Definition database : TechnicalComponent := {|
  component_name := "Database";
  technology := Technology.DATABASE;
  controls := ∅;
|}.

Definition authenticate : DataFlow := {|
  flow_name := "Authenticate";
  source := 1%positive;
  destination := 2%positive;
  protocol := Protocol.SQL;
  authentication := Authentication.NONE;
|}.

(** Two processes that serve files and pass no control on, the first one
    reading environment variables, and a flow that fetches documents from the
    database with a NoSQL protocol under a session identifier. *)
Definition file_server : Process := {|
  process_component := {|
    component_name := "FileServer";
    technology := Technology.FILE_SERVER;
    controls := ∅ |};
  environment_variables := true;
|}.

Definition file_share : Process := {|
  process_component := {|
    component_name := "FileShare";
    technology := Technology.LOCAL_FILE_SYSTEM;
    controls := ∅ |};
  environment_variables := false;
|}.

Definition documents : DataFlow := {|
  flow_name := "Documents";
  source := 1%positive;
  destination := 2%positive;
  protocol := Protocol.NOSQL;
  authentication := Authentication.SESSION_ID;
|}.

(** A second REST process, which checks input bounds and parameterizes its
    queries, and its own SQL flow to the database. *)
Definition reporting : Process := {|
  process_component := {|
    component_name := "Reporting";
    technology := Technology.WEB_SERVICE_REST;
    controls := {[Controls.INPUT_BOUNDS_CHECKS; Controls.PARAMETERIZATION]} |};
  environment_variables := false;
|}.

Definition report_query : DataFlow := {|
  flow_name := "ReportQuery";
  source := 7%positive;
  destination := 2%positive;
  protocol := Protocol.SQL;
  authentication := Authentication.NONE;
|}.

Definition example_heap : Heap :=
  list_to_map
    [ (1%positive, EProcess web_api);
      (2%positive, EDataStore database);
      (3%positive, EDataFlow authenticate);
      (4%positive, EProcess file_server);
      (5%positive, EProcess file_share);
      (6%positive, EDataFlow documents);
      (7%positive, EProcess reporting);
      (8%positive, EDataFlow report_query) ].

Definition example_model : Model := {|
  elements := [1; 2; 4; 5; 7]%positive;
  data_flows := [3; 6; 8]%positive;
|}.

(** ** Notions used by the statements *)

(** A computation that hands back the heap it was given. *)
Definition read_only {A : Type} (m : Py A) : Prop := ∀ h, (m h).2 = h.

(** The objects at the two ends of a flow; other elements have none. *)
Definition endpoints (h : Heap) (e : Element) : option Element * option Element :=
  match e with
  | EDataFlow f => (h !! source f, h !! destination f)
  | _ => (None, None)
  end.

(** The state of a target: the object behind the reference and, for a flow,
    the objects behind its endpoints. *)
Definition target_state (h : Heap) (t : ref)
  : option (Element * (option Element * option Element)) :=
  (λ e, (e, endpoints h e)) <$> h !! t.

(** What one (rule, target) pair adds to the findings. *)
Definition pair_findings (r : Rule) (h : Heap) (t : ref) : list Risk :=
  match h !! t with
  | Some e =>
      if is_eligible (self r) e
      then match (apply r t h).1 with
           | Returned (Some risk) => [risk]
           | _ => []
           end
      else []
  | None => []
  end.

(** The findings on [t] that come from CAPEC-10. *)
Definition on_target_from_CAPEC_10 (t : ref) (risk : Risk) : Prop :=
  risk_target risk = t ∧ risk_threat risk = CAPEC_10.init.

#[global] Instance on_target_from_CAPEC_10_dec t risk :
  Decision (on_target_from_CAPEC_10 t risk).
Proof. unfold on_target_from_CAPEC_10. apply _. Defined.

(** Declaring one more control on a component, on the element that wraps it
    (a flow has no controls and stays as it is) and on one object of the
    heap. *)
Definition TechnicalComponent_add_control (ctl : Controls.t)
    (c : TechnicalComponent) : TechnicalComponent := {|
  component_name := component_name c;
  technology := technology c;
  controls := {[ctl]} ∪ controls c;
|}.

Definition Process_add_control (ctl : Controls.t) (p : Process) : Process := {|
  process_component := TechnicalComponent_add_control ctl (process_component p);
  environment_variables := environment_variables p;
|}.

Definition Element_add_control (ctl : Controls.t) (e : Element) : Element :=
  match e with
  | EActor c => EActor (TechnicalComponent_add_control ctl c)
  | EProcess p => EProcess (Process_add_control ctl p)
  | EDataStore c => EDataStore (TechnicalComponent_add_control ctl c)
  | EExternalEntity c => EExternalEntity (TechnicalComponent_add_control ctl c)
  | EDataFlow f => EDataFlow f
  end.

Definition declare_control (x : ref) (ctl : Controls.t) (h : Heap) : Heap :=
  alter (Element_add_control ctl) x h.

(** A process that sanitizes its input and checks no bounds, next to the
    objects of the example. *)
Definition sanitizing_proxy : Process := {|
  process_component := {|
    component_name := "Proxy";
    technology := Technology.WEB_SERVICE_REST;
    controls := {[Controls.INPUT_SANITIZING]} |};
  environment_variables := true;
|}.

Definition proxy_heap : Heap :=
  <[9%positive := EProcess sanitizing_proxy]> example_heap.

(** * Properties *)

(** ** Running the monad *)

Lemma Controls_attr_INPUT_SANITIZING :
  Controls_attr "INPUT_SANITIZING" = mret Controls.INPUT_SANITIZING.
Proof. reflexivity. Qed.

Lemma Controls_attr_INPUT_VALIDATION :
  Controls_attr "INPUT_VALIDATION" = mret Controls.INPUT_VALIDATION.
Proof. reflexivity. Qed.

Lemma Controls_attr_INPUT_BOUNDS_CHECKS :
  Controls_attr "INPUT_BOUNDS_CHECKS" = mret Controls.INPUT_BOUNDS_CHECKS.
Proof. reflexivity. Qed.

Lemma Controls_attr_SERVER_SIDE_INCLUDES_DEACTIVATION :
  Controls_attr "SERVER_SIDE_INCLUDES_DEACTIVATION"
  = mret Controls.SERVER_SIDE_INCLUDES_DEACTIVATION.
Proof. reflexivity. Qed.

Lemma Controls_attr_Parameterization :
  Controls_attr "Parameterization" = mret Controls.PARAMETERIZATION.
Proof. reflexivity. Qed.

Lemma has_control_true c ctl : has_control c ctl = true ↔ ctl ∈ controls c.
Proof. unfold has_control. apply bool_decide_eq_true. Qed.

Lemma has_control_false c ctl : has_control c ctl = false ↔ ctl ∉ controls c.
Proof. unfold has_control. apply bool_decide_eq_false. Qed.

Ltac py_unfold :=
  unfold and_then, is_False, is_True, not_, call_has_control, has_control_of;
  rewrite ?Controls_attr_INPUT_SANITIZING, ?Controls_attr_INPUT_VALIDATION,
    ?Controls_attr_INPUT_BOUNDS_CHECKS,
    ?Controls_attr_SERVER_SIDE_INCLUDES_DEACTIVATION,
    ?Controls_attr_Parameterization;
  unfold deref, raise, mbind, mret, Py_bind, Py_ret.

(** ** What each rule computes on a target of its class *)

Section RuleEquations.
Context `{ModelMethods}.
Implicit Types (h : Heap) (t : ref) (p : Process) (f : DataFlow).

Lemma CAPEC_10_apply_Process h t p :
  h !! t = Some (EProcess p) →
  CAPEC_10.apply t h =
    (Returned
       (if environment_variables p
           && negb (has_control (process_component p) Controls.INPUT_SANITIZING)
           && negb (has_control (process_component p) Controls.INPUT_BOUNDS_CHECKS)
        then Some (Build_Risk t CAPEC_10.init Impact.HIGH Likelihood.VERY_LIKELY)
        else None), h).
Proof.
  intros Ht. unfold CAPEC_10.apply. py_unfold. rewrite Ht.
  destruct (environment_variables p); simpl; [|done].
  by repeat (destruct (has_control _ _); simpl).
Qed.

Lemma CAPEC_100_apply_Process h t p :
  h !! t = Some (EProcess p) →
  CAPEC_100.apply t h =
    (Returned
       (if has_control (process_component p) Controls.INPUT_BOUNDS_CHECKS
        then None
        else Some (Build_Risk t CAPEC_100.init Impact.VERY_HIGH Likelihood.VERY_LIKELY)),
     h).
Proof.
  intros Ht. unfold CAPEC_100.apply. py_unfold. rewrite Ht.
  by destruct (has_control _ _).
Qed.

Lemma CAPEC_101_apply_Process h t p :
  h !! t = Some (EProcess p) →
  CAPEC_101.apply t h =
    (Returned
       (if has_control (process_component p) Controls.SERVER_SIDE_INCLUDES_DEACTIVATION
           || has_control (process_component p) Controls.INPUT_SANITIZING
        then None
        else if is_web_application p
        then Some (Build_Risk t CAPEC_101.init Impact.HIGH Likelihood.LIKELY)
        else None), h).
Proof.
  intros Ht. unfold CAPEC_101.apply. py_unfold. rewrite Ht.
  repeat (destruct (has_control _ _); simpl; try done).
  by destruct (is_web_application p).
Qed.

Lemma CAPEC_126_apply_Process h t p :
  h !! t = Some (EProcess p) →
  CAPEC_126.apply t h =
    (Returned
       (if bool_decide (technology (process_component p)
                          ∈ [Technology.FILE_SERVER; Technology.LOCAL_FILE_SYSTEM])
           && negb (has_control (process_component p) Controls.INPUT_SANITIZING)
           && negb (has_control (process_component p) Controls.INPUT_VALIDATION)
        then Some (Build_Risk t CAPEC_126.init Impact.MEDIUM Likelihood.VERY_LIKELY)
        else None), h).
Proof.
  intros Ht. unfold CAPEC_126.apply. py_unfold. rewrite Ht.
  case_bool_decide; simpl; [|done].
  by repeat (destruct (has_control _ _); simpl).
Qed.

Lemma CAPEC_102_apply_DataFlow h t f :
  h !! t = Some (EDataFlow f) →
  CAPEC_102.apply t h =
    (Returned
       (if negb (is_encrypted f)
           && bool_decide (authentication f = Authentication.SESSION_ID)
        then Some (Build_Risk t CAPEC_102.init Impact.HIGH Likelihood.LIKELY)
        else None), h).
Proof.
  intros Ht. unfold CAPEC_102.apply. py_unfold. rewrite Ht.
  destruct (is_encrypted f); simpl; [done|].
  by case_bool_decide.
Qed.

Lemma CAPEC_676_apply_DataFlow h t f e c :
  h !! t = Some (EDataFlow f) →
  h !! source f = Some e →
  technical_component e = Some c →
  CAPEC_676.apply t h =
    (Returned
       (if is_nosql_database_protocol f
           && negb (has_control c Controls.INPUT_SANITIZING)
           && negb (has_control c Controls.INPUT_VALIDATION)
        then Some (Build_Risk (source f) CAPEC_676.init Impact.HIGH Likelihood.LIKELY)
        else None), h).
Proof.
  intros Ht Hs Hc. unfold CAPEC_676.apply. py_unfold. rewrite Ht.
  destruct (is_nosql_database_protocol f); simpl; [|done].
  rewrite Hs; simpl; rewrite Hc.
  by repeat (destruct (has_control _ _); simpl; rewrite ?Hs; simpl; rewrite ?Hc).
Qed.

Lemma CAPEC_66_apply_DataFlow h t f e c :
  h !! t = Some (EDataFlow f) →
  h !! source f = Some e →
  technical_component e = Some c →
  CAPEC_66.apply t h =
    (Returned
       (if is_relational_database_protocol f
           && negb (has_control c Controls.INPUT_SANITIZING)
           && negb (has_control c Controls.INPUT_VALIDATION)
           && negb (has_control c Controls.PARAMETERIZATION)
        then Some (Build_Risk (source f) CAPEC_66.init Impact.HIGH Likelihood.LIKELY)
        else None), h).
Proof.
  intros Ht Hs Hc. unfold CAPEC_66.apply. py_unfold. rewrite Ht.
  destruct (is_relational_database_protocol f); simpl; [|done].
  rewrite Hs; simpl; rewrite Hc.
  by repeat (destruct (has_control _ _); simpl; rewrite ?Hs; simpl; rewrite ?Hc).
Qed.

End RuleEquations.

(** ** Rules only read *)

Create HintDb py_ro discriminated.

Section ReadOnly.
Context {A B : Type}.

Lemma read_only_mret (a : A) : read_only (mret a).
Proof. done. Qed.

Lemma read_only_raise (e : Exn) : read_only (raise (A:=A) e).
Proof. done. Qed.

Lemma read_only_mbind (m : Py A) (k : A → Py B) :
  read_only m → (∀ a, read_only (k a)) → read_only (m ≫= k).
Proof.
  intros Hm Hk h. unfold mbind, Py_bind. specialize (Hm h).
  destruct (m h) as [[a|e] h']; simpl in *; subst; [apply Hk | done].
Qed.

Lemma read_only_if (b : bool) (m1 m2 : Py A) :
  read_only m1 → read_only m2 → read_only (if b then m1 else m2).
Proof. by destruct b. Qed.

End ReadOnly.

Lemma read_only_deref r : read_only (deref r).
Proof. intros h. unfold deref. by destruct (h !! r). Qed.

Lemma read_only_Controls_attr attr : read_only (Controls_attr attr).
Proof.
  unfold Controls_attr.
  destruct (Controls.getattr attr); [apply read_only_mret | apply read_only_raise].
Qed.

#[global] Hint Resolve read_only_mret read_only_raise read_only_if
  read_only_deref read_only_Controls_attr : py_ro.

Lemma read_only_has_control_of r : read_only (has_control_of r).
Proof.
  apply read_only_mbind; [auto with py_ro|].
  intros e. destruct (technical_component e); auto with py_ro.
Qed.

Lemma read_only_call_has_control callee attr :
  read_only callee → read_only (call_has_control callee attr).
Proof.
  intros Hc. apply read_only_mbind; [done|]. intros m.
  apply read_only_mbind; auto with py_ro.
Qed.

Lemma read_only_and_then a b : read_only a → read_only b → read_only (a &&& b).
Proof. intros Ha Hb. apply read_only_mbind; [done|]. intros []; auto with py_ro. Qed.

Lemma read_only_is_False e : read_only e → read_only (is_False e).
Proof. intros He. apply read_only_mbind; auto with py_ro. Qed.

Lemma read_only_is_True e : read_only e → read_only (is_True e).
Proof. intros He. apply read_only_mbind; auto with py_ro. Qed.

Lemma read_only_not_ e : read_only e → read_only (not_ e).
Proof. intros He. apply read_only_mbind; auto with py_ro. Qed.

#[global] Hint Resolve read_only_has_control_of read_only_call_has_control
  read_only_and_then read_only_is_False read_only_is_True read_only_not_ : py_ro.

Ltac read_only_rule :=
  apply read_only_mbind; [auto with py_ro|];
  intros [?|?|?|?|?]; auto with py_ro;
  repeat first
    [ apply read_only_if
    | apply read_only_mbind; [auto 10 with py_ro|intros ?]
    | progress auto 10 with py_ro ].

Section RulesReadOnly.
Context `{ModelMethods}.

Lemma CAPEC_10_read_only t : read_only (CAPEC_10.apply t).
Proof. unfold CAPEC_10.apply. read_only_rule. Qed.

Lemma CAPEC_66_read_only t : read_only (CAPEC_66.apply t).
Proof. unfold CAPEC_66.apply. read_only_rule. Qed.

Lemma CAPEC_100_read_only t : read_only (CAPEC_100.apply t).
Proof. unfold CAPEC_100.apply. read_only_rule. Qed.

Lemma CAPEC_101_read_only t : read_only (CAPEC_101.apply t).
Proof. unfold CAPEC_101.apply. read_only_rule. Qed.

Lemma CAPEC_102_read_only t : read_only (CAPEC_102.apply t).
Proof. unfold CAPEC_102.apply. read_only_rule. Qed.

Lemma CAPEC_126_read_only t : read_only (CAPEC_126.apply t).
Proof. unfold CAPEC_126.apply. read_only_rule. Qed.

Lemma CAPEC_676_read_only t : read_only (CAPEC_676.apply t).
Proof. unfold CAPEC_676.apply. read_only_rule. Qed.

End RulesReadOnly.

(** ** The state a rule can see *)

Lemma rule_cases `{ModelMethods} (r : Rule) :
  r ∈ DEFAULT_THREATLIB →
  r = CAPEC_10.new
  ∨ r = CAPEC_66.new
  ∨ r = CAPEC_100.new
  ∨ r = CAPEC_101.new
  ∨ r = CAPEC_102.new
  ∨ r = CAPEC_126.new
  ∨ r = CAPEC_676.new.
Proof.
  unfold DEFAULT_THREATLIB. rewrite !elem_of_cons, elem_of_nil. tauto.
Qed.

Ltac each_rule Hr :=
  apply rule_cases in Hr;
  destruct Hr as [->|[->|[->|[->|[->|[->| ->]]]]]]; simpl.

Lemma DEFAULT_THREATLIB_read_only `{ModelMethods} (r : Rule) t :
  r ∈ DEFAULT_THREATLIB → read_only (apply r t).
Proof.
  intros Hr. each_rule Hr;
    auto using CAPEC_10_read_only, CAPEC_66_read_only, CAPEC_100_read_only,
      CAPEC_101_read_only, CAPEC_102_read_only, CAPEC_126_read_only,
      CAPEC_676_read_only.
Qed.

(** The outcome of a rule is decided by the state of its target. *)
Lemma DEFAULT_THREATLIB_local `{ModelMethods} (r : Rule) t (h h' : Heap) :
  r ∈ DEFAULT_THREATLIB →
  target_state h' t = target_state h t →
  (apply r t h').1 = (apply r t h).1.
Proof.
  intros Hr. unfold target_state.
  destruct (h !! t) as [e|] eqn:Ht, (h' !! t) as [e'|] eqn:Ht';
    simpl; intros Hst; [|done|done|].
  - injection Hst as -> Hend.
    destruct e as [c|p|c|c|f]; simpl in Hend;
      [| | | |injection Hend as Hsrc Hdst];
      each_rule Hr;
      try (unfold CAPEC_10.apply, CAPEC_66.apply, CAPEC_100.apply,
             CAPEC_101.apply, CAPEC_102.apply, CAPEC_126.apply,
             CAPEC_676.apply, deref, mbind, Py_bind; rewrite Ht, Ht'; done);
      try (erewrite !CAPEC_10_apply_Process by eassumption; done);
      try (erewrite !CAPEC_100_apply_Process by eassumption; done);
      try (erewrite !CAPEC_101_apply_Process by eassumption; done);
      try (erewrite !CAPEC_126_apply_Process by eassumption; done);
      try (erewrite !CAPEC_102_apply_DataFlow by eassumption; done).
    + unfold CAPEC_66.apply. py_unfold. rewrite Ht, Ht'.
      destruct (is_relational_database_protocol f); simpl; [|done].
      rewrite Hsrc. destruct (h !! source f) as [e|] eqn:Hs; simpl; [|done].
      destruct (technical_component e) eqn:Hc; simpl; [|done].
      by repeat (destruct (has_control _ _); simpl;
                 rewrite ?Hsrc, ?Hs; simpl; rewrite ?Hc).
    + unfold CAPEC_676.apply. py_unfold. rewrite Ht, Ht'.
      destruct (is_nosql_database_protocol f); simpl; [|done].
      rewrite Hsrc. destruct (h !! source f) as [e|] eqn:Hs; simpl; [|done].
      destruct (technical_component e) eqn:Hc; simpl; [|done].
      by repeat (destruct (has_control _ _); simpl;
                 rewrite ?Hsrc, ?Hs; simpl; rewrite ?Hc).
  - each_rule Hr;
      unfold CAPEC_10.apply, CAPEC_66.apply, CAPEC_100.apply,
        CAPEC_101.apply, CAPEC_102.apply, CAPEC_126.apply,
        CAPEC_676.apply, deref, mbind, Py_bind; by rewrite Ht, Ht'.
Qed.

(** ** Evaluation *)

Lemma evaluate_pair_findings (r : Rule) (res : Result) t (h : Heap) :
  read_only (apply r t) →
  is_Some (h !! t) →
  ∃ res', evaluate_pair r res t h = (Returned res', h)
          ∧ findings res' = findings res ++ pair_findings r h t.
Proof.
  intros Hro [e He]. unfold evaluate_pair, pair_findings, deref, try_, mbind, Py_bind.
  rewrite He. destruct (is_eligible (self r) e).
  - specialize (Hro h). destruct (apply r t h) as [[[risk|]|exn] h'];
      simpl in *; subst; eexists; (split; [reflexivity|]); simpl;
      by rewrite ?app_nil_r.
  - eexists. split; [reflexivity|]. by rewrite app_nil_r.
Qed.

Lemma evaluate_rule_findings (r : Rule) (ts : list ref) (res : Result) (h : Heap) :
  (∀ t, read_only (apply r t)) →
  (∀ t, t ∈ ts → is_Some (h !! t)) →
  ∃ res', foldM (evaluate_pair r) ts res h = (Returned res', h)
          ∧ findings res' = findings res ++ (ts ≫= pair_findings r h).
Proof.
  intros Hro. revert res. induction ts as [|t ts IH]; intros res Hts; simpl.
  - eexists. split; [reflexivity|]. by rewrite app_nil_r.
  - destruct (evaluate_pair_findings r res t h (Hro t)) as (res1 & Hrun & Hres1).
    { apply Hts, list_elem_of_here. }
    destruct (IH res1) as (res2 & Hrun2 & Hres2).
    { intros x Hx. by apply Hts, list_elem_of_further. }
    exists res2. split.
    + unfold mbind, Py_bind at 1. by rewrite Hrun.
    + by rewrite Hres2, Hres1, <-app_assoc.
Qed.

Lemma evaluate_lib_findings (m : Model) (lib : list Rule) (res : Result) (h : Heap) :
  (∀ r, r ∈ lib → ∀ t, read_only (apply r t)) →
  (∀ t, t ∈ targets m → is_Some (h !! t)) →
  ∃ res', foldM (evaluate_rule m) lib res h = (Returned res', h)
          ∧ findings res'
            = findings res ++ (lib ≫= λ r, targets m ≫= pair_findings r h).
Proof.
  intros Hro Hts. revert res. induction lib as [|r lib IH]; intros res; simpl.
  - eexists. split; [reflexivity|]. by rewrite app_nil_r.
  - destruct (evaluate_rule_findings r (targets m) res h) as (res1 & Hrun & Hres1).
    { apply Hro, list_elem_of_here. }
    { done. }
    destruct (IH (λ r' Hr', Hro r' (list_elem_of_further _ _ _ Hr')) res1)
      as (res2 & Hrun2 & Hres2).
    exists res2. split.
    + unfold mbind, Py_bind at 1. unfold evaluate_rule at 1. by rewrite Hrun.
    + by rewrite Hres2, Hres1, <-app_assoc.
Qed.

(** A Risk carries the rule that built it. *)
Lemma DEFAULT_THREATLIB_risk_threat `{ModelMethods} (r : Rule) t (h : Heap) risk :
  r ∈ DEFAULT_THREATLIB →
  (apply r t h).1 = Returned (Some risk) →
  risk_threat risk = self r.
Proof.
  intros Hr. each_rule Hr;
    unfold CAPEC_10.apply, CAPEC_66.apply, CAPEC_100.apply, CAPEC_101.apply,
      CAPEC_102.apply, CAPEC_126.apply, CAPEC_676.apply;
    py_unfold; intros Happ;
    repeat (case_match; simplify_eq/=); done.
Qed.

Lemma pair_findings_CAPEC_10 (h : Heap) x :
  pair_findings CAPEC_10.new h x
  = match h !! x with
    | Some (EProcess p) =>
        if environment_variables p
           && negb (has_control (process_component p) Controls.INPUT_SANITIZING)
           && negb (has_control (process_component p) Controls.INPUT_BOUNDS_CHECKS)
        then [Build_Risk x CAPEC_10.init Impact.HIGH Likelihood.VERY_LIKELY]
        else []
    | _ => []
    end.
Proof.
  unfold pair_findings. destruct (h !! x) as [[c|p|c|c|f]|] eqn:Hx; try done.
  change (is_eligible (self CAPEC_10.new) (EProcess p)) with true.
  simpl. rewrite (CAPEC_10_apply_Process h x p Hx). simpl.
  by destruct (_ && _).
Qed.

Section OneFinding.
Context `{ModelMethods}.
Variables (h : Heap) (t : ref).

Lemma filter_CAPEC_10_other_target x :
  x ≠ t → filter (on_target_from_CAPEC_10 t) (pair_findings CAPEC_10.new h x) = [].
Proof.
  intros Hx. rewrite pair_findings_CAPEC_10.
  destruct (h !! x) as [[c|p|c|c|f]|]; try done.
  destruct (_ && _); [|done].
  rewrite filter_cons_False, filter_nil; [done|]. by intros [? _].
Qed.

Lemma filter_CAPEC_10_absent (ts : list ref) :
  t ∉ ts →
  filter (on_target_from_CAPEC_10 t) (ts ≫= pair_findings CAPEC_10.new h) = [].
Proof.
  induction ts as [|x ts IH]; [done|].
  rewrite not_elem_of_cons. intros [Hx Hts].
  rewrite bind_cons, filter_app, IH, app_nil_r by done.
  by apply filter_CAPEC_10_other_target.
Qed.

Lemma filter_CAPEC_10_present (ts : list ref) p :
  NoDup ts → t ∈ ts →
  h !! t = Some (EProcess p) →
  environment_variables p = true →
  has_control (process_component p) Controls.INPUT_SANITIZING = false →
  has_control (process_component p) Controls.INPUT_BOUNDS_CHECKS = false →
  filter (on_target_from_CAPEC_10 t) (ts ≫= pair_findings CAPEC_10.new h)
  = [Build_Risk t CAPEC_10.init Impact.HIGH Likelihood.VERY_LIKELY].
Proof.
  intros Hnd Hin Ht Henv Hsan Hbnd.
  induction ts as [|x ts IH]; [by apply elem_of_nil in Hin|].
  apply NoDup_cons in Hnd as [Hx Hnd]. rewrite bind_cons, filter_app.
  apply elem_of_cons in Hin as [<-|Hin].
  - rewrite filter_CAPEC_10_absent, app_nil_r by done.
    rewrite pair_findings_CAPEC_10, Ht, Henv, Hsan, Hbnd. simpl.
    by rewrite filter_cons_True, filter_nil.
  - rewrite filter_CAPEC_10_other_target, IH; [done..|].
    intros ->. done.
Qed.

Lemma filter_other_rule (r : Rule) (ts : list ref) :
  r ∈ DEFAULT_THREATLIB → self r ≠ CAPEC_10.init →
  filter (on_target_from_CAPEC_10 t) (ts ≫= pair_findings r h) = [].
Proof.
  intros Hr Hne. induction ts as [|x ts IH]; [done|].
  rewrite bind_cons, filter_app, IH, app_nil_r.
  unfold pair_findings. destruct (h !! x) as [e|]; [|done].
  destruct (is_eligible (self r) e); [|done].
  destruct (apply r x h).1 as [[risk|]|exn] eqn:Happ; try done.
  rewrite filter_cons_False, filter_nil; [done|]. intros [_ Hth].
  by rewrite (DEFAULT_THREATLIB_risk_threat r x h risk Hr Happ) in Hth.
Qed.

End OneFinding.

(** ** The example model *)

(** The example model, evaluated: eleven findings, three of them on the file
    server, and no rule that raised. *)
Example evaluate_example_model :
  ∃ res,
    evaluate example_model (DEFAULT_THREATLIB (H:=spec_methods)) example_heap
    = (Returned res, example_heap)
    ∧ (λ risk, (risk_target risk, Threat.id (risk_threat risk))) <$> findings res
      = [ (4, "CAPEC-10"); (1, "CAPEC-66"); (1, "CAPEC-100"); (4, "CAPEC-100");
          (5, "CAPEC-100"); (1, "CAPEC-101"); (7, "CAPEC-101");
          (6, "CAPEC-102"); (4, "CAPEC-126"); (5, "CAPEC-126");
          (1, "CAPEC-676") ]%positive
    ∧ failed res = [].
Proof. eexists. split; [vm_compute; reflexivity|]. split; reflexivity. Qed.

(** * The claims *)

(** C1: on a DataFlow over a relational database protocol whose source is a
    component with none of the controls INPUT_SANITIZING, INPUT_VALIDATION and
    parameterization, CAPEC-66 returns one Risk, on the flow's source, with
    Impact HIGH and Likelihood LIKELY; when the source has the
    parameterization control it returns None. *)
Theorem CAPEC_66_apply_sql_injection `{ModelMethods} (h : Heap) t f e c :
  h !! t = Some (EDataFlow f) →
  is_relational_database_protocol f = true →
  h !! source f = Some e →
  technical_component e = Some c →
  (has_control c Controls.INPUT_SANITIZING = false →
   has_control c Controls.INPUT_VALIDATION = false →
   has_control c Controls.PARAMETERIZATION = false →
   CAPEC_66.apply t h
   = (Returned (Some (Build_Risk (source f) CAPEC_66.init
                        Impact.HIGH Likelihood.LIKELY)), h))
  ∧ (has_control c Controls.PARAMETERIZATION = true →
     CAPEC_66.apply t h = (Returned None, h)).
Proof.
  intros Ht Hrel Hs Hc.
  rewrite (CAPEC_66_apply_DataFlow h t f e c Ht Hs Hc), Hrel. split.
  - by intros -> -> ->.
  - intros ->. by rewrite andb_false_r.
Qed.

Lemma CAPEC_66_apply_sql_injection_witness :
  example_heap !! 3%positive = Some (EDataFlow authenticate)
  ∧ example_heap !! source authenticate = Some (EProcess web_api)
  ∧ CAPEC_66.apply (H:=spec_methods) 3%positive example_heap
    = (Returned (Some (Build_Risk (source authenticate) CAPEC_66.init
                         Impact.HIGH Likelihood.LIKELY)), example_heap)
  ∧ example_heap !! 8%positive = Some (EDataFlow report_query)
  ∧ example_heap !! source report_query = Some (EProcess reporting)
  ∧ has_control (process_component reporting) Controls.INPUT_SANITIZING = false
  ∧ has_control (process_component reporting) Controls.INPUT_VALIDATION = false
  ∧ CAPEC_66.apply (H:=spec_methods) 8%positive example_heap
    = (Returned None, example_heap).
Proof.
  do 2 (split; [reflexivity|]). split.
  - apply (CAPEC_66_apply_sql_injection (H:=spec_methods)
             example_heap 3%positive authenticate (EProcess web_api)
             (process_component web_api)); reflexivity.
  - do 4 (split; [reflexivity|]).
    apply (CAPEC_66_apply_sql_injection (H:=spec_methods)
             example_heap 8%positive report_query (EProcess reporting)
             (process_component reporting)); reflexivity.
Defined.



(** C3, as the spec states it, fails: a process on LOCAL_FILE_SYSTEM, which is
    not FILE_SERVER, does trigger CAPEC-126. *)
Lemma CAPEC_126_LOCAL_FILE_SYSTEM_counterexample :
  example_heap !! 5%positive = Some (EProcess file_share)
  ∧ technology (process_component file_share) ≠ Technology.FILE_SERVER
  ∧ CAPEC_126.apply 5%positive example_heap
    = (Returned (Some (Build_Risk 5%positive CAPEC_126.init
                         Impact.MEDIUM Likelihood.VERY_LIKELY)),
       example_heap).
Proof. split; [reflexivity|]. split; [discriminate|reflexivity]. Qed.

(** C3 (amended): on a Process whose technology is FILE_SERVER and which has
    neither INPUT_SANITIZING nor INPUT_VALIDATION, CAPEC-126 returns one Risk
    on the process with Impact MEDIUM and Likelihood VERY_LIKELY; on a Process
    whose technology is neither FILE_SERVER nor LOCAL_FILE_SYSTEM it returns
    None, whatever the controls. *)
Theorem CAPEC_126_apply_path_traversal (h : Heap) t p :
  h !! t = Some (EProcess p) →
  (technology (process_component p) = Technology.FILE_SERVER →
   has_control (process_component p) Controls.INPUT_SANITIZING = false →
   has_control (process_component p) Controls.INPUT_VALIDATION = false →
   CAPEC_126.apply t h
   = (Returned (Some (Build_Risk t CAPEC_126.init
                        Impact.MEDIUM Likelihood.VERY_LIKELY)), h))
  ∧ (technology (process_component p) ≠ Technology.FILE_SERVER →
     technology (process_component p) ≠ Technology.LOCAL_FILE_SYSTEM →
     CAPEC_126.apply t h = (Returned None, h)).
Proof.
  intros Ht. rewrite (CAPEC_126_apply_Process h t p Ht). split.
  - intros -> -> ->. done.
  - intros Hfs Hlfs. rewrite bool_decide_eq_false_2; [done|].
    rewrite !elem_of_cons, elem_of_nil. tauto.
Qed.

Lemma CAPEC_126_apply_path_traversal_witness :
  example_heap !! 4%positive = Some (EProcess file_server)
  ∧ CAPEC_126.apply 4%positive example_heap
    = (Returned (Some (Build_Risk 4%positive CAPEC_126.init
                         Impact.MEDIUM Likelihood.VERY_LIKELY)),
       example_heap)
  ∧ example_heap !! 1%positive = Some (EProcess web_api)
  ∧ CAPEC_126.apply 1%positive example_heap = (Returned None, example_heap).
Proof.
  split; [reflexivity|]. split.
  - apply (CAPEC_126_apply_path_traversal example_heap 4%positive file_server);
      reflexivity.
  - split; [reflexivity|].
    apply (CAPEC_126_apply_path_traversal example_heap 1%positive web_api);
      [reflexivity|discriminate|discriminate].
Defined.

(** C5: on a Process without the INPUT_BOUNDS_CHECKS control CAPEC-100
    returns a Risk on the process with Impact VERY_HIGH and Likelihood
    VERY_LIKELY; on a Process with that control it returns None. *)
Theorem CAPEC_100_apply_bounds_checks (h : Heap) t p :
  h !! t = Some (EProcess p) →
  (has_control (process_component p) Controls.INPUT_BOUNDS_CHECKS = false →
   CAPEC_100.apply t h
   = (Returned (Some (Build_Risk t CAPEC_100.init
                        Impact.VERY_HIGH Likelihood.VERY_LIKELY)), h))
  ∧ (has_control (process_component p) Controls.INPUT_BOUNDS_CHECKS = true →
     CAPEC_100.apply t h = (Returned None, h)).
Proof.
  intros Ht. rewrite (CAPEC_100_apply_Process h t p Ht).
  split; by intros ->.
Qed.

Lemma CAPEC_100_apply_bounds_checks_witness :
  example_heap !! 1%positive = Some (EProcess web_api)
  ∧ CAPEC_100.apply 1%positive example_heap
    = (Returned (Some (Build_Risk 1%positive CAPEC_100.init
                         Impact.VERY_HIGH Likelihood.VERY_LIKELY)),
       example_heap)
  ∧ example_heap !! 7%positive = Some (EProcess reporting)
  ∧ CAPEC_100.apply 7%positive example_heap = (Returned None, example_heap).
Proof.
  split; [reflexivity|]. split.
  - apply (CAPEC_100_apply_bounds_checks example_heap 1%positive web_api);
      reflexivity.
  - split; [reflexivity|].
    apply (CAPEC_100_apply_bounds_checks example_heap 7%positive reporting);
      reflexivity.
Defined.

(** C6: on a DataFlow that is not encrypted and whose authentication is
    SESSION_ID, CAPEC-102 returns one Risk on the flow itself with Impact HIGH
    and Likelihood LIKELY; on an encrypted flow it returns None. *)
Theorem CAPEC_102_apply_session_sidejacking `{ModelMethods} (h : Heap) t f :
  h !! t = Some (EDataFlow f) →
  (is_encrypted f = false →
   authentication f = Authentication.SESSION_ID →
   CAPEC_102.apply t h
   = (Returned (Some (Build_Risk t CAPEC_102.init
                        Impact.HIGH Likelihood.LIKELY)), h))
  ∧ (is_encrypted f = true → CAPEC_102.apply t h = (Returned None, h)).
Proof.
  intros Ht. rewrite (CAPEC_102_apply_DataFlow h t f Ht). split.
  - intros -> ->. done.
  - intros ->. done.
Qed.

Lemma CAPEC_102_apply_session_sidejacking_witness :
  example_heap !! 6%positive = Some (EDataFlow documents)
  ∧ CAPEC_102.apply (H:=spec_methods) 6%positive example_heap
    = (Returned (Some (Build_Risk 6%positive CAPEC_102.init
                         Impact.HIGH Likelihood.LIKELY)),
       example_heap).
Proof.
  split; [reflexivity|].
  apply (CAPEC_102_apply_session_sidejacking (H:=spec_methods)
           example_heap 6%positive documents); reflexivity.
Defined.

(** C10: on a DataFlow whose source is a component, CAPEC-676 returns one
    Risk, on the flow's source and with Impact HIGH and Likelihood LIKELY,
    when the flow uses a NoSQL database protocol and the source has neither
    INPUT_SANITIZING nor INPUT_VALIDATION; in every other case it returns
    None. *)
Theorem CAPEC_676_apply_nosql_injection `{ModelMethods} (h : Heap) t f e c :
  h !! t = Some (EDataFlow f) →
  h !! source f = Some e →
  technical_component e = Some c →
  (is_nosql_database_protocol f = true →
   has_control c Controls.INPUT_SANITIZING = false →
   has_control c Controls.INPUT_VALIDATION = false →
   CAPEC_676.apply t h
   = (Returned (Some (Build_Risk (source f) CAPEC_676.init
                        Impact.HIGH Likelihood.LIKELY)), h))
  ∧ (¬ (is_nosql_database_protocol f = true
        ∧ has_control c Controls.INPUT_SANITIZING = false
        ∧ has_control c Controls.INPUT_VALIDATION = false) →
     CAPEC_676.apply t h = (Returned None, h)).
Proof.
  intros Ht Hs Hc. rewrite (CAPEC_676_apply_DataFlow h t f e c Ht Hs Hc). split.
  - intros -> -> ->. done.
  - intros Hn.
    destruct (is_nosql_database_protocol f); simpl; [|done].
    destruct (has_control c Controls.INPUT_SANITIZING); simpl; [done|].
    destruct (has_control c Controls.INPUT_VALIDATION); simpl; [done|].
    by destruct Hn.
Qed.

Lemma CAPEC_676_apply_nosql_injection_witness :
  example_heap !! 6%positive = Some (EDataFlow documents)
  ∧ example_heap !! source documents = Some (EProcess web_api)
  ∧ source documents ≠ 6%positive
  ∧ CAPEC_676.apply (H:=spec_methods) 6%positive example_heap
    = (Returned (Some (Build_Risk (source documents) CAPEC_676.init
                         Impact.HIGH Likelihood.LIKELY)),
       example_heap).
Proof.
  do 2 (split; [reflexivity|]). split; [discriminate|].
  apply (CAPEC_676_apply_nosql_injection (H:=spec_methods)
           example_heap 6%positive documents (EProcess web_api)
           (process_component web_api)); reflexivity.
Defined.

(** C9: a rule of the default library that is applied to an element whose
    class is not among the classes the rule declares returns None; it does
    not raise, and the heap is as before. *)
Theorem DEFAULT_THREATLIB_apply_ineligible `{ModelMethods}
    (r : Rule) (h : Heap) t e :
  r ∈ DEFAULT_THREATLIB →
  h !! t = Some e →
  is_eligible (self r) e = false →
  apply r t h = (Returned None, h).
Proof.
  intros Hr Ht. each_rule Hr; intros Hne;
    unfold CAPEC_10.apply, CAPEC_66.apply, CAPEC_100.apply, CAPEC_101.apply,
      CAPEC_102.apply, CAPEC_126.apply, CAPEC_676.apply, deref, mbind, Py_bind;
    rewrite Ht; destruct e; try reflexivity; by vm_compute in Hne.
Qed.

Lemma DEFAULT_THREATLIB_apply_ineligible_witness :
  example_heap !! 2%positive = Some (EDataStore database)
  ∧ is_eligible CAPEC_66.init (EDataStore database) = false
  ∧ CAPEC_66.apply (H:=spec_methods) 2%positive example_heap
    = (Returned None, example_heap).
Proof.
  do 2 (split; [reflexivity|]).
  apply (DEFAULT_THREATLIB_apply_ineligible (H:=spec_methods)
           (CAPEC_66.new (H:=spec_methods))
           example_heap 2%positive (EDataStore database));
    [apply list_elem_of_further, list_elem_of_here|reflexivity|reflexivity].
Defined.

(** C7: for every rule of the default library, [apply] leaves the heap as it
    found it, and its outcome (None, a Risk with its target, Impact and
    Likelihood, or an exception) is the same in any two heaps in which the
    target is in the same state. *)
Theorem DEFAULT_THREATLIB_apply_pure `{ModelMethods} (r : Rule) t (h h' : Heap) :
  r ∈ DEFAULT_THREATLIB →
  target_state h' t = target_state h t →
  (apply r t h).2 = h
  ∧ (apply r t h').2 = h'
  ∧ (apply r t h').1 = (apply r t h).1.
Proof.
  intros Hr Hst. split; [|split].
  - by apply DEFAULT_THREATLIB_read_only.
  - by apply DEFAULT_THREATLIB_read_only.
  - by apply DEFAULT_THREATLIB_local.
Qed.

Lemma DEFAULT_THREATLIB_apply_pure_witness :
  target_state (delete 4%positive example_heap) 6%positive
  = target_state example_heap 6%positive
  ∧ (apply (CAPEC_676.new (H:=spec_methods)) 6%positive example_heap).2
    = example_heap
  ∧ (apply (CAPEC_676.new (H:=spec_methods)) 6%positive
       (delete 4%positive example_heap)).2
    = delete 4%positive example_heap
  ∧ (apply (CAPEC_676.new (H:=spec_methods)) 6%positive
       (delete 4%positive example_heap)).1
    = (apply (CAPEC_676.new (H:=spec_methods)) 6%positive example_heap).1.
Proof.
  split; [reflexivity|].
  apply (DEFAULT_THREATLIB_apply_pure (H:=spec_methods)
           (CAPEC_676.new (H:=spec_methods)) 6%positive
           example_heap (delete 4%positive example_heap)); [|reflexivity].
  do 6 apply list_elem_of_further. apply list_elem_of_here.
Defined.


(** C4: in a model whose targets are distinct objects of the heap, a Process
    with environment variables that has neither INPUT_SANITIZING nor
    INPUT_BOUNDS_CHECKS gets, from the evaluation against the default library,
    exactly one finding of CAPEC-10 on it, with Impact HIGH and Likelihood
    VERY_LIKELY; the evaluation returns and leaves the heap as it was. *)
Theorem evaluate_CAPEC_10_exactly_one `{ModelMethods}
    (m : Model) (h : Heap) t p :
  NoDup (targets m) →
  Forall (λ x, is_Some (h !! x)) (targets m) →
  t ∈ targets m →
  h !! t = Some (EProcess p) →
  environment_variables p = true →
  has_control (process_component p) Controls.INPUT_SANITIZING = false →
  has_control (process_component p) Controls.INPUT_BOUNDS_CHECKS = false →
  ∃ res,
    evaluate m DEFAULT_THREATLIB h = (Returned res, h)
    ∧ filter (on_target_from_CAPEC_10 t) (findings res)
      = [Build_Risk t CAPEC_10.init Impact.HIGH Likelihood.VERY_LIKELY].
Proof.
  intros Hnd Hall Hin Ht Henv Hsan Hbnd.
  destruct (evaluate_lib_findings m DEFAULT_THREATLIB
              {| findings := []; failed := [] |} h) as (res & Hrun & Hres).
  { intros r Hr x. by apply DEFAULT_THREATLIB_read_only. }
  { by apply Forall_forall. }
  exists res. split; [exact Hrun|].
  rewrite Hres. cbn [findings app]. unfold DEFAULT_THREATLIB.
  rewrite !bind_cons, !filter_app.
  rewrite (filter_CAPEC_10_present h t (targets m) p) by done.
  rewrite !filter_other_rule; try done;
    unfold DEFAULT_THREATLIB; rewrite !elem_of_cons; tauto.
Qed.

Lemma evaluate_CAPEC_10_exactly_one_witness :
  ∃ res,
    evaluate example_model (DEFAULT_THREATLIB (H:=spec_methods)) example_heap
    = (Returned res, example_heap)
    ∧ filter (on_target_from_CAPEC_10 4%positive) (findings res)
      = [Build_Risk 4%positive CAPEC_10.init Impact.HIGH Likelihood.VERY_LIKELY].
Proof.
  apply (evaluate_CAPEC_10_exactly_one (H:=spec_methods)
           example_model example_heap 4%positive file_server);
    try reflexivity; compute_done.
Defined.

(** * Further properties of the rules *)

(** X1: on a Process, CAPEC-101 returns one Risk on the process, HIGH and
    LIKELY, when the process has neither SERVER_SIDE_INCLUDES_DEACTIVATION nor
    INPUT_SANITIZING and is a web application; in every other case it returns
    None. *)
Theorem CAPEC_101_apply_ssi_injection `{ModelMethods} (h : Heap) t p :
  h !! t = Some (EProcess p) →
  (has_control (process_component p) Controls.SERVER_SIDE_INCLUDES_DEACTIVATION = false →
   has_control (process_component p) Controls.INPUT_SANITIZING = false →
   is_web_application p = true →
   CAPEC_101.apply t h
   = (Returned (Some (Build_Risk t CAPEC_101.init Impact.HIGH Likelihood.LIKELY)), h))
  ∧ (¬ (has_control (process_component p) Controls.SERVER_SIDE_INCLUDES_DEACTIVATION = false
        ∧ has_control (process_component p) Controls.INPUT_SANITIZING = false
        ∧ is_web_application p = true) →
     CAPEC_101.apply t h = (Returned None, h)).
Proof.
  intros Ht. rewrite (CAPEC_101_apply_Process h t p Ht). split.
  - by intros -> -> ->.
  - intros Hn.
    destruct (has_control _ Controls.SERVER_SIDE_INCLUDES_DEACTIVATION); [done|].
    destruct (has_control _ Controls.INPUT_SANITIZING); [done|]. simpl.
    destruct (is_web_application p); [|done]. by destruct Hn.
Qed.

Lemma CAPEC_101_apply_ssi_injection_witness :
  example_heap !! 1%positive = Some (EProcess web_api)
  ∧ CAPEC_101.apply (H:=spec_methods) 1%positive example_heap
    = (Returned (Some (Build_Risk 1%positive CAPEC_101.init
                         Impact.HIGH Likelihood.LIKELY)), example_heap)
  ∧ example_heap !! 4%positive = Some (EProcess file_server)
  ∧ CAPEC_101.apply (H:=spec_methods) 4%positive example_heap
    = (Returned None, example_heap).
Proof.
  split; [reflexivity|]. split.
  - apply (CAPEC_101_apply_ssi_injection (H:=spec_methods)
             example_heap 1%positive web_api); reflexivity.
  - split; [reflexivity|].
    apply (CAPEC_101_apply_ssi_injection (H:=spec_methods)
             example_heap 4%positive file_server); [reflexivity|].
    intros (_ & _ & Hweb). discriminate Hweb.
Defined.

(** X2: applied to a Process, CAPEC-10 returns a Risk exactly when the process
    reads environment variables and has neither INPUT_SANITIZING nor
    INPUT_BOUNDS_CHECKS; the Risk is on the process, HIGH and VERY_LIKELY, and
    in every other case the rule returns None. *)
Theorem CAPEC_10_apply_environment_variables (h : Heap) t p :
  h !! t = Some (EProcess p) →
  (environment_variables p = true →
   has_control (process_component p) Controls.INPUT_SANITIZING = false →
   has_control (process_component p) Controls.INPUT_BOUNDS_CHECKS = false →
   CAPEC_10.apply t h
   = (Returned (Some (Build_Risk t CAPEC_10.init
                        Impact.HIGH Likelihood.VERY_LIKELY)), h))
  ∧ (¬ (environment_variables p = true
        ∧ has_control (process_component p) Controls.INPUT_SANITIZING = false
        ∧ has_control (process_component p) Controls.INPUT_BOUNDS_CHECKS = false) →
     CAPEC_10.apply t h = (Returned None, h)).
Proof.
  intros Ht. rewrite (CAPEC_10_apply_Process h t p Ht). split.
  - by intros -> -> ->.
  - intros Hn. destruct (environment_variables p); [|done].
    destruct (has_control _ Controls.INPUT_SANITIZING); [done|].
    destruct (has_control _ Controls.INPUT_BOUNDS_CHECKS); [done|].
    by destruct Hn.
Qed.

Lemma CAPEC_10_apply_environment_variables_witness :
  example_heap !! 4%positive = Some (EProcess file_server)
  ∧ CAPEC_10.apply 4%positive example_heap
    = (Returned (Some (Build_Risk 4%positive CAPEC_10.init
                         Impact.HIGH Likelihood.VERY_LIKELY)), example_heap)
  ∧ example_heap !! 1%positive = Some (EProcess web_api)
  ∧ CAPEC_10.apply 1%positive example_heap = (Returned None, example_heap).
Proof.
  split; [reflexivity|]. split.
  - apply (CAPEC_10_apply_environment_variables example_heap 4%positive
             file_server); reflexivity.
  - split; [reflexivity|].
    apply (CAPEC_10_apply_environment_variables example_heap 1%positive web_api);
      [reflexivity|].
    intros (Henv & _). discriminate Henv.
Defined.



(** X6: whenever CAPEC-10 reports a target, CAPEC-100 reports the same target
    too, as VERY_HIGH and VERY_LIKELY: the condition of CAPEC-10 contains the
    one of CAPEC-100. *)
Theorem CAPEC_10_finding_implies_CAPEC_100 (h : Heap) t risk :
  (CAPEC_10.apply t h).1 = Returned (Some risk) →
  CAPEC_100.apply t h
  = (Returned (Some (Build_Risk t CAPEC_100.init
                       Impact.VERY_HIGH Likelihood.VERY_LIKELY)), h).
Proof.
  destruct (h !! t) as [[c|p|c|c|f]|] eqn:Ht;
    try (unfold CAPEC_10.apply, deref, mbind, Py_bind; rewrite Ht; done).
  rewrite (CAPEC_10_apply_Process h t p Ht), (CAPEC_100_apply_Process h t p Ht).
  simpl. destruct (environment_variables p); [|done].
  destruct (has_control _ Controls.INPUT_SANITIZING); [done|].
  by destruct (has_control _ Controls.INPUT_BOUNDS_CHECKS).
Qed.

Lemma CAPEC_10_finding_implies_CAPEC_100_witness :
  (CAPEC_10.apply 4%positive example_heap).1
  = Returned (Some (Build_Risk 4%positive CAPEC_10.init
                      Impact.HIGH Likelihood.VERY_LIKELY))
  ∧ CAPEC_100.apply 4%positive example_heap
    = (Returned (Some (Build_Risk 4%positive CAPEC_100.init
                         Impact.VERY_HIGH Likelihood.VERY_LIKELY)), example_heap).
Proof.
  split; [reflexivity|].
  apply (CAPEC_10_finding_implies_CAPEC_100 example_heap 4%positive
           (Build_Risk 4%positive CAPEC_10.init Impact.HIGH Likelihood.VERY_LIKELY)).
  reflexivity.
Defined.

(** X7: the rating of a rule does not depend on what it is applied to.  Any
    two Risks that one rule of the default library returns, on whatever
    targets and heaps, name that rule as their threat and have the same
    Impact and the same Likelihood. *)
Theorem DEFAULT_THREATLIB_fixed_rating `{ModelMethods}
    (r : Rule) (h1 h2 : Heap) t1 t2 risk1 risk2 :
  r ∈ DEFAULT_THREATLIB →
  (apply r t1 h1).1 = Returned (Some risk1) →
  (apply r t2 h2).1 = Returned (Some risk2) →
  risk_threat risk1 = self r
  ∧ risk_threat risk2 = self r
  ∧ risk_impact risk1 = risk_impact risk2
  ∧ risk_likelihood risk1 = risk_likelihood risk2.
Proof.
  intros Hr. each_rule Hr;
    unfold CAPEC_10.apply, CAPEC_66.apply, CAPEC_100.apply, CAPEC_101.apply,
      CAPEC_102.apply, CAPEC_126.apply, CAPEC_676.apply;
    py_unfold; intros Happ1 Happ2;
    repeat (case_match; simplify_eq/=); done.
Qed.

Lemma DEFAULT_THREATLIB_fixed_rating_witness :
  (apply CAPEC_126.new 4%positive example_heap).1
  = Returned (Some (Build_Risk 4%positive CAPEC_126.init
                      Impact.MEDIUM Likelihood.VERY_LIKELY))
  ∧ (apply CAPEC_126.new 5%positive example_heap).1
    = Returned (Some (Build_Risk 5%positive CAPEC_126.init
                        Impact.MEDIUM Likelihood.VERY_LIKELY))
  ∧ risk_threat (Build_Risk 4%positive CAPEC_126.init
                   Impact.MEDIUM Likelihood.VERY_LIKELY) = self CAPEC_126.new
  ∧ risk_threat (Build_Risk 5%positive CAPEC_126.init
                   Impact.MEDIUM Likelihood.VERY_LIKELY) = self CAPEC_126.new
  ∧ risk_impact (Build_Risk 4%positive CAPEC_126.init
                   Impact.MEDIUM Likelihood.VERY_LIKELY)
    = risk_impact (Build_Risk 5%positive CAPEC_126.init
                     Impact.MEDIUM Likelihood.VERY_LIKELY)
  ∧ risk_likelihood (Build_Risk 4%positive CAPEC_126.init
                       Impact.MEDIUM Likelihood.VERY_LIKELY)
    = risk_likelihood (Build_Risk 5%positive CAPEC_126.init
                         Impact.MEDIUM Likelihood.VERY_LIKELY).
Proof.
  do 2 (split; [reflexivity|]).
  apply (DEFAULT_THREATLIB_fixed_rating (H:=spec_methods) CAPEC_126.new
           example_heap example_heap 4%positive 5%positive);
    [|reflexivity|reflexivity].
  do 5 apply list_elem_of_further. apply list_elem_of_here.
Defined.

(** X8: a Risk that a rule of the default library returns is on the target
    the rule was applied to or, when that target is a flow, on the flow's
    source; no rule reports any other object. *)
Theorem DEFAULT_THREATLIB_risk_target `{ModelMethods}
    (r : Rule) (h : Heap) t risk :
  r ∈ DEFAULT_THREATLIB →
  (apply r t h).1 = Returned (Some risk) →
  ∃ e, h !! t = Some e
       ∧ (risk_target risk = t
          ∨ ∃ f, e = EDataFlow f ∧ risk_target risk = source f).
Proof.
  intros Hr. each_rule Hr;
    unfold CAPEC_10.apply, CAPEC_66.apply, CAPEC_100.apply, CAPEC_101.apply,
      CAPEC_102.apply, CAPEC_126.apply, CAPEC_676.apply;
    py_unfold; intros Happ;
    destruct (h !! t) as [e|] eqn:Ht; try done;
    exists e; (split; [done|]);
    repeat (case_match; simplify_eq/=); eauto.
Qed.

Lemma DEFAULT_THREATLIB_risk_target_witness :
  (apply (CAPEC_676.new (H:=spec_methods)) 6%positive example_heap).1
  = Returned (Some (Build_Risk 1%positive CAPEC_676.init
                      Impact.HIGH Likelihood.LIKELY))
  ∧ ∃ e, example_heap !! 6%positive = Some e
         ∧ (1%positive = 6%positive
            ∨ ∃ f, e = EDataFlow f ∧ 1%positive = source f).
Proof.
  split; [reflexivity|].
  apply (DEFAULT_THREATLIB_risk_target (H:=spec_methods)
           (CAPEC_676.new (H:=spec_methods)) example_heap 6%positive
           (Build_Risk 1%positive CAPEC_676.init Impact.HIGH Likelihood.LIKELY));
    [|reflexivity].
  do 6 apply list_elem_of_further. apply list_elem_of_here.
Defined.

(** X9: a component that declares both INPUT_SANITIZING and
    INPUT_BOUNDS_CHECKS is never reported: if a rule of the default library
    returns a Risk and its target is a component, the component lacks one of
    the two controls. *)
Theorem DEFAULT_THREATLIB_reported_component_lacks_control `{ModelMethods}
    (r : Rule) (h : Heap) t risk e c :
  r ∈ DEFAULT_THREATLIB →
  (apply r t h).1 = Returned (Some risk) →
  h !! risk_target risk = Some e →
  technical_component e = Some c →
  has_control c Controls.INPUT_SANITIZING = false
  ∨ has_control c Controls.INPUT_BOUNDS_CHECKS = false.
Proof.
  intros Hr. each_rule Hr;
    unfold CAPEC_10.apply, CAPEC_66.apply, CAPEC_100.apply, CAPEC_101.apply,
      CAPEC_102.apply, CAPEC_126.apply, CAPEC_676.apply;
    py_unfold; intros Happ;
    repeat (case_match; simplify_eq/=);
    intros Htgt Hc; simplify_eq/=;
    repeat match goal with
           | Hn : negb _ = true |- _ => apply negb_true_iff in Hn
           | Hn : negb _ = false |- _ => apply negb_false_iff in Hn
           | Hn : _ || _ = false |- _ => apply orb_false_iff in Hn as [? ?]
           end; eauto.
Qed.

Lemma DEFAULT_THREATLIB_reported_component_lacks_control_witness :
  (apply CAPEC_100.new 1%positive example_heap).1
  = Returned (Some (Build_Risk 1%positive CAPEC_100.init
                      Impact.VERY_HIGH Likelihood.VERY_LIKELY))
  ∧ example_heap !! 1%positive = Some (EProcess web_api)
  ∧ (has_control (process_component web_api) Controls.INPUT_SANITIZING = false
     ∨ has_control (process_component web_api) Controls.INPUT_BOUNDS_CHECKS = false).
Proof.
  do 2 (split; [reflexivity|]).
  apply (DEFAULT_THREATLIB_reported_component_lacks_control (H:=spec_methods)
           CAPEC_100.new example_heap 1%positive
           (Build_Risk 1%positive CAPEC_100.init
              Impact.VERY_HIGH Likelihood.VERY_LIKELY)
           (EProcess web_api) (process_component web_api));
    [|reflexivity..].
  do 2 apply list_elem_of_further. apply list_elem_of_here.
Defined.

(** X10: CAPEC-126 also reports a Process on LOCAL_FILE_SYSTEM that has
    neither INPUT_SANITIZING nor INPUT_VALIDATION, as MEDIUM and VERY_LIKELY;
    and either of the two controls silences it, whatever the technology. *)
Theorem CAPEC_126_apply_local_file_system (h : Heap) t p :
  h !! t = Some (EProcess p) →
  (technology (process_component p) = Technology.LOCAL_FILE_SYSTEM →
   has_control (process_component p) Controls.INPUT_SANITIZING = false →
   has_control (process_component p) Controls.INPUT_VALIDATION = false →
   CAPEC_126.apply t h
   = (Returned (Some (Build_Risk t CAPEC_126.init
                        Impact.MEDIUM Likelihood.VERY_LIKELY)), h))
  ∧ (has_control (process_component p) Controls.INPUT_SANITIZING = true
     ∨ has_control (process_component p) Controls.INPUT_VALIDATION = true →
     CAPEC_126.apply t h = (Returned None, h)).
Proof.
  intros Ht. rewrite (CAPEC_126_apply_Process h t p Ht). split.
  - by intros -> -> ->.
  - intros [-> | ->]; [by rewrite andb_false_r|].
    by rewrite andb_false_r.
Qed.

Lemma CAPEC_126_apply_local_file_system_witness :
  example_heap !! 5%positive = Some (EProcess file_share)
  ∧ CAPEC_126.apply 5%positive example_heap
    = (Returned (Some (Build_Risk 5%positive CAPEC_126.init
                         Impact.MEDIUM Likelihood.VERY_LIKELY)), example_heap).
Proof.
  split; [reflexivity|].
  apply (CAPEC_126_apply_local_file_system example_heap 5%positive file_share);
    reflexivity.
Defined.

(** X11: CAPEC-102 reports only session identifiers: on a flow whose
    authentication is not SESSION_ID it returns None, encrypted or not. *)
Theorem CAPEC_102_apply_other_authentication `{ModelMethods} (h : Heap) t f :
  h !! t = Some (EDataFlow f) →
  authentication f ≠ Authentication.SESSION_ID →
  CAPEC_102.apply t h = (Returned None, h).
Proof.
  intros Ht Hauth. rewrite (CAPEC_102_apply_DataFlow h t f Ht).
  rewrite (bool_decide_eq_false_2 _ Hauth). by rewrite andb_false_r.
Qed.

Lemma CAPEC_102_apply_other_authentication_witness :
  example_heap !! 3%positive = Some (EDataFlow authenticate)
  ∧ @is_encrypted spec_methods authenticate = false
  ∧ CAPEC_102.apply (H:=spec_methods) 3%positive example_heap
    = (Returned None, example_heap).
Proof.
  do 2 (split; [reflexivity|]).
  apply (CAPEC_102_apply_other_authentication (H:=spec_methods)
           example_heap 3%positive authenticate); [reflexivity|discriminate].
Defined.

(** X13: INPUT_SANITIZING on a Process silences every rule of the default
    library but CAPEC-100: a Risk returned for a Process that has the control
    comes from CAPEC-100. *)
Theorem DEFAULT_THREATLIB_sanitized_process `{ModelMethods}
    (r : Rule) (h : Heap) t p risk :
  r ∈ DEFAULT_THREATLIB →
  h !! t = Some (EProcess p) →
  has_control (process_component p) Controls.INPUT_SANITIZING = true →
  (apply r t h).1 = Returned (Some risk) →
  self r = CAPEC_100.init.
Proof.
  intros Hr Ht Hsan. each_rule Hr; try done;
    try (unfold CAPEC_66.apply, CAPEC_102.apply, CAPEC_676.apply,
           deref, mbind, Py_bind; rewrite Ht; done).
  - rewrite (CAPEC_10_apply_Process h t p Ht). simpl.
    by rewrite Hsan, andb_false_r.
  - rewrite (CAPEC_101_apply_Process h t p Ht). simpl.
    by rewrite Hsan, orb_true_r.
  - rewrite (CAPEC_126_apply_Process h t p Ht). simpl.
    by rewrite Hsan, andb_false_r.
Qed.

Lemma DEFAULT_THREATLIB_sanitized_process_witness :
  proxy_heap !! 9%positive = Some (EProcess sanitizing_proxy)
  ∧ has_control (process_component sanitizing_proxy) Controls.INPUT_SANITIZING = true
  ∧ (apply CAPEC_100.new 9%positive proxy_heap).1
    = Returned (Some (Build_Risk 9%positive CAPEC_100.init
                        Impact.VERY_HIGH Likelihood.VERY_LIKELY))
  ∧ self CAPEC_100.new = CAPEC_100.init.
Proof.
  do 3 (split; [reflexivity|]).
  apply (DEFAULT_THREATLIB_sanitized_process (H:=spec_methods) CAPEC_100.new
           proxy_heap 9%positive sanitizing_proxy
           (Build_Risk 9%positive CAPEC_100.init
              Impact.VERY_HIGH Likelihood.VERY_LIKELY));
    [|reflexivity..].
  do 2 apply list_elem_of_further. apply list_elem_of_here.
Defined.

(** ** Declaring a control *)

Lemma has_control_add_control ctl c k :
  has_control (TechnicalComponent_add_control ctl c) k
  = bool_decide (k = ctl) || has_control c k.
Proof.
  unfold has_control. simpl.
  case_bool_decide as Hin; symmetry.
  - apply elem_of_union in Hin as [Hk%elem_of_singleton|Hk].
    + by rewrite (bool_decide_eq_true_2 _ Hk).
    + by rewrite (bool_decide_eq_true_2 _ Hk), orb_true_r.
  - apply orb_false_iff. split; apply bool_decide_eq_false_2; set_solver.
Qed.

Lemma technical_component_add_control ctl e :
  technical_component (Element_add_control ctl e)
  = TechnicalComponent_add_control ctl <$> technical_component e.
Proof. by destruct e. Qed.

Lemma lookup_declare_control x ctl (h : Heap) y e :
  h !! y = Some e →
  declare_control x ctl h !! y = Some e
  ∨ declare_control x ctl h !! y = Some (Element_add_control ctl e).
Proof.
  intros Hy. unfold declare_control. rewrite lookup_alter.
  case_decide as Hxy; [subst; rewrite Hy; by right | by left].
Qed.

Lemma lookup_declare_control_None x ctl (h : Heap) y :
  h !! y = None → declare_control x ctl h !! y = None.
Proof.
  intros Hy. unfold declare_control. rewrite lookup_alter.
  case_decide as Hxy; [subst; by rewrite Hy | done].
Qed.

(** The outcome of a rule is decided by the target and, for a flow, by its
    source. *)
Lemma DEFAULT_THREATLIB_local_source `{ModelMethods} (r : Rule) t (h h' : Heap) :
  r ∈ DEFAULT_THREATLIB →
  h' !! t = h !! t →
  (∀ f, h !! t = Some (EDataFlow f) → h' !! source f = h !! source f) →
  (apply r t h').1 = (apply r t h).1.
Proof.
  intros Hr Ht' Hsrc.
  destruct (h !! t) as [e|] eqn:Ht.
  - destruct e as [c|p|c|c|f];
      each_rule Hr;
      try (unfold CAPEC_10.apply, CAPEC_66.apply, CAPEC_100.apply,
             CAPEC_101.apply, CAPEC_102.apply, CAPEC_126.apply,
             CAPEC_676.apply, deref, mbind, Py_bind; rewrite Ht, Ht'; done);
      try (erewrite !CAPEC_10_apply_Process by eassumption; done);
      try (erewrite !CAPEC_100_apply_Process by eassumption; done);
      try (erewrite !CAPEC_101_apply_Process by eassumption; done);
      try (erewrite !CAPEC_126_apply_Process by eassumption; done);
      try (erewrite !CAPEC_102_apply_DataFlow by eassumption; done);
      specialize (Hsrc f eq_refl).
    + unfold CAPEC_66.apply. py_unfold. rewrite Ht, Ht'.
      destruct (is_relational_database_protocol f); simpl; [|done].
      rewrite Hsrc. destruct (h !! source f) as [e|] eqn:Hs; simpl; [|done].
      destruct (technical_component e) eqn:Hc; simpl; [|done].
      by repeat (destruct (has_control _ _); simpl;
                 rewrite ?Hsrc, ?Hs; simpl; rewrite ?Hc).
    + unfold CAPEC_676.apply. py_unfold. rewrite Ht, Ht'.
      destruct (is_nosql_database_protocol f); simpl; [|done].
      rewrite Hsrc. destruct (h !! source f) as [e|] eqn:Hs; simpl; [|done].
      destruct (technical_component e) eqn:Hc; simpl; [|done].
      by repeat (destruct (has_control _ _); simpl;
                 rewrite ?Hsrc, ?Hs; simpl; rewrite ?Hc).
  - each_rule Hr;
      unfold CAPEC_10.apply, CAPEC_66.apply, CAPEC_100.apply,
        CAPEC_101.apply, CAPEC_102.apply, CAPEC_126.apply,
        CAPEC_676.apply, deref, mbind, Py_bind; by rewrite Ht, Ht'.
Qed.

Ltac unfold_rules :=
  unfold CAPEC_10.apply, CAPEC_66.apply, CAPEC_100.apply, CAPEC_101.apply,
    CAPEC_102.apply, CAPEC_126.apply, CAPEC_676.apply, deref, mbind, Py_bind.

Ltac split_conditions :=
  repeat match goal with
         | |- context [bool_decide ?P] => destruct (bool_decide P); simpl
         | |- context [has_control ?c ?k] => destruct (has_control c k); simpl
         | |- context [environment_variables ?p] =>
             destruct (environment_variables p); simpl
         | |- context [is_web_application ?p] =>
             destruct (is_web_application p); simpl
         | |- context [is_relational_database_protocol ?f] =>
             destruct (is_relational_database_protocol f); simpl
         | |- context [is_nosql_database_protocol ?f] =>
             destruct (is_nosql_database_protocol f); simpl
         | |- context [is_encrypted ?f] => destruct (is_encrypted f); simpl
         end.

Section DeclareControl.
Context `{ModelMethods}.
Variables (h : Heap) (x : ref) (ctl : Controls.t).
Hypothesis web_application_by_technology :
  ∀ p, is_web_application (Process_add_control ctl p) = is_web_application p.

Lemma declare_control_on_flow (r : Rule) t f :
  r ∈ DEFAULT_THREATLIB →
  h !! t = Some (EDataFlow f) →
  (apply r t (declare_control x ctl h)).1 = (apply r t h).1
  ∨ (apply r t (declare_control x ctl h)).1 = Returned None.
Proof.
  intros Hr Ht.
  assert (declare_control x ctl h !! t = Some (EDataFlow f)) as Ht'.
  { by destruct (lookup_declare_control x ctl h t _ Ht). }
  destruct (h !! source f) as [s|] eqn:Hs.
  2: { left. apply DEFAULT_THREATLIB_local_source; [done|by rewrite Ht, Ht'|].
       intros g Hg. rewrite Ht in Hg. injection Hg as <-.
       by rewrite Hs, lookup_declare_control_None. }
  destruct (lookup_declare_control x ctl h (source f) s Hs) as [Hs'|Hs'].
  { left. apply DEFAULT_THREATLIB_local_source; [done|by rewrite Ht, Ht'|].
    intros g Hg. rewrite Ht in Hg. injection Hg as <-. by rewrite Hs, Hs'. }
  destruct (technical_component s) as [c|] eqn:Hc.
  2: { left. apply DEFAULT_THREATLIB_local_source; [done|by rewrite Ht, Ht'|].
       intros g Hg. rewrite Ht in Hg. injection Hg as <-.
       rewrite Hs, Hs'. by destruct s. }
  assert (technical_component (Element_add_control ctl s)
          = Some (TechnicalComponent_add_control ctl c)) as Hc'.
  { by rewrite technical_component_add_control, Hc. }
  each_rule Hr;
    try (left; unfold_rules; rewrite Ht, Ht'; done).
  - rewrite (CAPEC_66_apply_DataFlow _ t f _ _ Ht' Hs' Hc').
    rewrite (CAPEC_66_apply_DataFlow _ t f _ _ Ht Hs Hc).
    simpl. rewrite !has_control_add_control. split_conditions; auto.
  - left. rewrite (CAPEC_102_apply_DataFlow _ t f Ht').
    by rewrite (CAPEC_102_apply_DataFlow _ t f Ht).
  - rewrite (CAPEC_676_apply_DataFlow _ t f _ _ Ht' Hs' Hc').
    rewrite (CAPEC_676_apply_DataFlow _ t f _ _ Ht Hs Hc).
    simpl. rewrite !has_control_add_control. split_conditions; auto.
Qed.

Lemma declare_control_on_process (r : Rule) t p :
  r ∈ DEFAULT_THREATLIB →
  h !! t = Some (EProcess p) →
  declare_control x ctl h !! t = Some (EProcess (Process_add_control ctl p)) →
  (apply r t (declare_control x ctl h)).1 = (apply r t h).1
  ∨ (apply r t (declare_control x ctl h)).1 = Returned None.
Proof.
  intros Hr Ht Ht'.
  each_rule Hr;
    try (left; unfold_rules; rewrite Ht, Ht'; done).
  - rewrite (CAPEC_10_apply_Process _ t _ Ht'), (CAPEC_10_apply_Process _ t _ Ht).
    simpl. rewrite !has_control_add_control. split_conditions; auto.
  - rewrite (CAPEC_100_apply_Process _ t _ Ht'), (CAPEC_100_apply_Process _ t _ Ht).
    simpl. rewrite !has_control_add_control. split_conditions; auto.
  - rewrite (CAPEC_101_apply_Process _ t _ Ht'), (CAPEC_101_apply_Process _ t _ Ht).
    rewrite web_application_by_technology.
    simpl. rewrite !has_control_add_control. split_conditions; auto.
  - rewrite (CAPEC_126_apply_Process _ t _ Ht'), (CAPEC_126_apply_Process _ t _ Ht).
    simpl. rewrite !has_control_add_control. split_conditions; auto.
Qed.

End DeclareControl.

(** X14: declaring one more control on an object of the heap never adds a
    finding.  For every rule of the default library the outcome on any target
    is what it was before, or it has become None (provided the web-application
    test of a process does not look at the controls). *)
Theorem declare_control_never_adds_a_finding `{ModelMethods}
    (r : Rule) (h : Heap) t x ctl :
  (∀ p, is_web_application (Process_add_control ctl p) = is_web_application p) →
  r ∈ DEFAULT_THREATLIB →
  (apply r t (declare_control x ctl h)).1 = (apply r t h).1
  ∨ (apply r t (declare_control x ctl h)).1 = Returned None.
Proof.
  intros Hweb Hr.
  destruct (h !! t) as [e|] eqn:Ht.
  2: { left. apply DEFAULT_THREATLIB_local_source; [done| |].
       - by rewrite Ht, lookup_declare_control_None.
       - intros f Hf. by rewrite Ht in Hf. }
  destruct e as [c|p|c|c|f];
    try (by eapply declare_control_on_flow);
    (destruct (lookup_declare_control x ctl h t _ Ht) as [Ht'|Ht'];
     [ left; apply DEFAULT_THREATLIB_local_source;
       [done|by rewrite Ht, Ht'|intros g Hg; by rewrite Ht in Hg] |]);
    try (by eapply declare_control_on_process);
    left; each_rule Hr; unfold_rules; by rewrite Ht, Ht'.
Qed.

Lemma declare_control_never_adds_a_finding_witness :
  (apply CAPEC_10.new 4%positive example_heap).1
  = Returned (Some (Build_Risk 4%positive CAPEC_10.init
                      Impact.HIGH Likelihood.VERY_LIKELY))
  ∧ ((apply CAPEC_10.new 4%positive
        (declare_control 4%positive Controls.INPUT_BOUNDS_CHECKS example_heap)).1
     = (apply CAPEC_10.new 4%positive example_heap).1
     ∨ (apply CAPEC_10.new 4%positive
          (declare_control 4%positive Controls.INPUT_BOUNDS_CHECKS example_heap)).1
       = Returned None).
Proof.
  split; [reflexivity|].
  apply (declare_control_never_adds_a_finding (H:=spec_methods) CAPEC_10.new
           example_heap 4%positive 4%positive Controls.INPUT_BOUNDS_CHECKS).
  - intros p. reflexivity.
  - apply list_elem_of_here.
Defined.

(** X15: a rule reads the target and, for a flow, the flow's source, and
    nothing else: replacing any other object of the heap, the destination of
    the flow included, leaves the outcome of every rule of the default library
    as it was. *)
Theorem DEFAULT_THREATLIB_apply_frame `{ModelMethods}
    (r : Rule) (h : Heap) t y e' :
  r ∈ DEFAULT_THREATLIB →
  y ≠ t →
  (∀ f, h !! t = Some (EDataFlow f) → y ≠ source f) →
  (apply r t (<[y := e']> h)).1 = (apply r t h).1.
Proof.
  intros Hr Hyt Hys. apply DEFAULT_THREATLIB_local_source; [done| |].
  - by rewrite lookup_insert_ne.
  - intros f Hf. rewrite lookup_insert_ne; [done|]. by apply Hys.
Qed.

Lemma DEFAULT_THREATLIB_apply_frame_witness :
  destination documents = 2%positive
  ∧ (apply (CAPEC_676.new (H:=spec_methods)) 6%positive
       (<[2%positive := EProcess sanitizing_proxy]> example_heap)).1
    = (apply (CAPEC_676.new (H:=spec_methods)) 6%positive example_heap).1.
Proof.
  split; [reflexivity|].
  apply (DEFAULT_THREATLIB_apply_frame (H:=spec_methods)
           (CAPEC_676.new (H:=spec_methods)) example_heap 6%positive 2%positive
           (EProcess sanitizing_proxy)).
  - do 6 apply list_elem_of_further. apply list_elem_of_here.
  - discriminate.
  - intros f [= <-]. discriminate.
Defined.

(** X16: a reported target exists.  The target of a Risk that a rule of the
    default library returns names an object of the heap the rule ran in. *)
Theorem DEFAULT_THREATLIB_risk_target_allocated `{ModelMethods}
    (r : Rule) (h : Heap) t risk :
  r ∈ DEFAULT_THREATLIB →
  (apply r t h).1 = Returned (Some risk) →
  is_Some (h !! risk_target risk).
Proof.
  intros Hr. each_rule Hr;
    unfold CAPEC_10.apply, CAPEC_66.apply, CAPEC_100.apply, CAPEC_101.apply,
      CAPEC_102.apply, CAPEC_126.apply, CAPEC_676.apply;
    py_unfold; intros Happ;
    repeat (case_match; simplify_eq/=); eauto.
Qed.

Lemma DEFAULT_THREATLIB_risk_target_allocated_witness :
  (apply (CAPEC_102.new (H:=spec_methods)) 6%positive example_heap).1
  = Returned (Some (Build_Risk 6%positive CAPEC_102.init
                      Impact.HIGH Likelihood.LIKELY))
  ∧ is_Some (example_heap !! 6%positive).
Proof.
  split; [reflexivity|].
  apply (DEFAULT_THREATLIB_risk_target_allocated (H:=spec_methods)
           (CAPEC_102.new (H:=spec_methods)) example_heap 6%positive
           (Build_Risk 6%positive CAPEC_102.init Impact.HIGH Likelihood.LIKELY));
    [|reflexivity].
  do 4 apply list_elem_of_further. apply list_elem_of_here.
Defined.
